(** * serve.py: a static file server that adds CORS headers

    A shallow embedding of [src/serve.py] and of the parts of the Python
    runtime and standard library that decide what the script does:
    the builtin [int], [pathlib]'s [parent], the header buffer of
    [http.server.BaseHTTPRequestHandler], the constructor and context
    manager of [socketserver.TCPServer], and the interpreter's handling of
    an exception that leaves [main].

    Text is a [string]: one [ascii] per character, read as a code point
    below 256 (Python's one-byte string kind).  Characters from 256 upwards
    are outside the model, except the cup of the banner, which is kept as
    the three bytes the source file holds for it.

    What the script leaves to its surroundings is gathered in the record
    [environment]; a run of the program is the function [python] of it.
    A run is followed up to the interrupt of the operator, which the model
    places in the accept loop, after finitely many requests.  [print] and
    [os.chdir] are taken to succeed, and the log lines the handler writes
    to standard error are left out.  A request line is taken as the list
    of its words; lines of more than 65536 bytes are left out. *)

From Stdlib Require Import ZArith List String Ascii Bool Lia DecimalString DecimalPos.
Import ListNotations.
Local Open Scope string_scope.
Local Open Scope Z_scope.

(** ** Characters and byte strings *)

Definition LF : string := String (ascii_of_nat 10) EmptyString.
Definition CRLF : string := String (ascii_of_nat 13) LF.

Definition code (c : ascii) : Z := Z.of_N (N_of_ascii c).

(** [str.lower], exact on the letters A-Z.  It is only used to compare
    with words made of a-z and [-], which no other code point lowers
    to. *)
Definition lower_char (c : ascii) : ascii :=
  if (65 <=? code c) && (code c <=? 90)
  then ascii_of_N (Z.to_N (code c + 32)) else c.

Fixpoint lower (s : string) : string :=
  match s with
  | EmptyString => EmptyString
  | String c t => String (lower_char c) (lower t)
  end.


(** [b"".join(chunks)]. *)
Definition join (chunks : list string) : string :=
  fold_right append EmptyString chunks.

(** [s.split(sep)] for a separator of one character: the pieces between
    the separators, one more than there are separators. *)
Fixpoint split_on (sep : ascii) (s : string) : list string :=
  match s with
  | EmptyString => [EmptyString]
  | String c t =>
      if Ascii.eqb c sep then EmptyString :: split_on sep t
      else match split_on sep t with
           | piece :: pieces => String c piece :: pieces
           | [] => [String c EmptyString]
           end
  end.

(** [s.split(sep, 1)[1]]: what follows the first separator; [None] stands
    for the [IndexError] when there is none. *)
Fixpoint after_first (sep : ascii) (s : string) : option string :=
  match s with
  | EmptyString => None
  | String c t => if Ascii.eqb c sep then Some t else after_first sep t
  end.

(** [str(n)] for an integer. *)
Definition str_of_int (n : Z) : string := NilZero.string_of_int (Z.to_int n).

(** ** The builtin [int] on a string, base 10 *)

Module PyInt.

(** The characters [int] skips around the literal: tab to carriage
    return, space, and among the code points from 128 to 255 the two that
    are Unicode white space, U+0085 and U+00A0. *)
Definition is_space (c : ascii) : bool :=
  let n := code c in
  ((9 <=? n) && (n <=? 13)) || (n =? 32) || (n =? 133) || (n =? 160).

Definition digit_value (c : ascii) : option Z :=
  let n := code c in
  if (48 <=? n) && (n <=? 57) then Some (n - 48) else None.

Fixpoint skip_space (s : string) : string :=
  match s with
  | String c t => if is_space c then skip_space t else s
  | EmptyString => EmptyString
  end.

(** The scan over digits and underscores.  [prev_us] says that the
    previous character was an underscore; two in a row, or one at the
    end of the digits, is an error.  The result is the value, the number
    of digit characters, and the text after the digits. *)
Fixpoint scan_digits (s : string) (prev_us : bool) (acc digits : Z)
  : option (Z * Z * string) :=
  match s with
  | String c t =>
      if Ascii.eqb c "_"
      then if prev_us then None else scan_digits t true acc digits
      else match digit_value c with
           | Some d => scan_digits t false (10 * acc + d) (digits + 1)
           | None => if prev_us then None else Some (acc, digits, s)
           end
  | EmptyString => if prev_us then None else Some (acc, digits, EmptyString)
  end.

(** [sys.int_info.str_digits_check_threshold]. *)
Definition str_digits_check_threshold : Z := 640.

(** The length limit of integer string conversion: a literal of more than
    [max_str_digits] digits is refused, when the limit is not 0 and the
    literal has more digits than the threshold. *)
Definition exceeds_limit (max_str_digits digits : Z) : bool :=
  (str_digits_check_threshold <? digits)
  && (0 <? max_str_digits) && (max_str_digits <? digits).

(** [int(s)]: [None] stands for [ValueError]. *)
Definition int (max_str_digits : Z) (s : string) : option Z :=
  let s1 := skip_space s in
  let '(negative, s2) :=
    match s1 with
    | String "+" t => (false, t)
    | String "-" t => (true, t)
    | _ => (false, s1)
    end in
  match s2 with
  | String "_" _ => None
  | _ =>
      match scan_digits s2 false 0 0 with
      | None => None
      | Some (v, digits, rest) =>
          if digits =? 0 then None
          else if exceeds_limit max_str_digits digits then None
          else match skip_space rest with
               | EmptyString => Some (if negative then - v else v)
               | String _ _ => None
               end
      end
  end.

End PyInt.

(** ** [pathlib]: a pure path and its parent *)

Module Pathlib.

(** A path after [Path(...)] has parsed it: whether it starts at the
    root, and its names in order. *)
Record Path := { anchored : bool; names : list string }.

(** [p.parent]: the path without its last name; a path with no name is
    its own parent. *)
Definition parent (p : Path) : Path :=
  {| anchored := anchored p; names := removelast (names p) |}.

(** The directory [os.chdir(p)] enters from [cwd]: [p] itself when it
    starts at the root, else [p] under [cwd]. *)
Definition resolve (cwd p : Path) : Path :=
  if anchored p then p
  else {| anchored := anchored cwd; names := (names cwd ++ names p)%list |}.

End Pathlib.

(** ** [http.server]: the header buffer of a request handler *)

(** A request as it reaches the server: the words of its request line
    ([requestline.split()]), and whether a write to the client fails while
    the handler answers (the client has closed the connection), which
    makes the handler raise. *)
Record request := {
  requestline : list string;
  write_fails : bool
}.

(** The second word of the request line. *)
Definition req_path (req : request) : string := nth 1 (requestline req) "".

(** The attributes of a handler that sending headers reads and writes.
    [headers_buffer] is [None] while the attribute [_headers_buffer] does
    not exist; [wfile] holds the chunks written to the client, oldest
    first. *)
Record handler_state := {
  request_version : string;
  directory : Pathlib.Path;
  headers_buffer : option (list string);
  wfile : list string;
  close_connection : bool
}.

Definition set_headers_buffer (h : handler_state) (b : option (list string)) :=
  {| request_version := request_version h; directory := directory h;
     headers_buffer := b; wfile := wfile h;
     close_connection := close_connection h |}.

Definition set_close_connection (h : handler_state) (b : bool) :=
  {| request_version := request_version h; directory := directory h;
     headers_buffer := headers_buffer h; wfile := wfile h;
     close_connection := b |}.

(** [self.wfile.write(data)] on a connection that takes the write.  A
    write that fails is not a state of the handler: it ends the exchange,
    see [write_fails] and [handle_request_noblock]. *)
Definition wfile_write (h : handler_state) (data : string) :=
  {| request_version := request_version h; directory := directory h;
     headers_buffer := headers_buffer h; wfile := (wfile h ++ [data])%list;
     close_connection := close_connection h |}.

(** [self._headers_buffer.append(line)], creating the list when the
    attribute is missing. *)
Definition buffer_append (h : handler_state) (line : string) :=
  set_headers_buffer h
    (Some (match headers_buffer h with
           | None => [line]
           | Some b => (b ++ [line])%list
           end)).

(** The lines waiting in the buffer. *)
Definition pending (h : handler_state) : list string :=
  match headers_buffer h with Some b => b | None => [] end.

Module BaseHTTPRequestHandler.

Definition protocol_version : string := "HTTP/1.0".

Definition default_request_version : string := "HTTP/0.9".

(** The [try] block of [parse_request]: the two numbers of a version word
    [HTTP/<major>.<minor>], read by [int]; [None] stands for the
    [ValueError] or [IndexError] of a word of another form. *)
Definition version_number (max_str_digits : Z) (version : string)
  : option (Z * Z) :=
  if prefix "HTTP/" version
  then match after_first "/" version with
       | Some base_version_number =>
           match split_on "." base_version_number with
           | [major; minor] =>
               match PyInt.int max_str_digits major,
                     PyInt.int max_str_digits minor with
               | Some a, Some b => Some (a, b)
               | _, _ => None
               end
           | _ => None
           end
       | None => None
       end
  else None.

(** [version_number >= (2, 0)], the order of tuples. *)
Definition at_least_2_0 (v : Z * Z) : bool :=
  (2 <? fst v) || ((fst v =? 2) && (0 <=? snd v)).

(** The attribute [request_version] as [parse_request] leaves it, and
    under which the request is answered.  It starts as the default and
    becomes the last word of the line only when the line has three words
    or more and that word is a version below 2.0; a line with a bad
    version, or with a version from 2.0 on, is answered with an error
    while the attribute is still the default. *)
Definition parse_request_version (max_str_digits : Z) (words : list string)
  : string :=
  if (3 <=? List.length words)%nat
  then let version := last words "" in
       match version_number max_str_digits version with
       | Some v => if at_least_2_0 v then default_request_version else version
       | None => default_request_version
       end
  else default_request_version.

Definition is_http09 (h : handler_state) : bool :=
  String.eqb (request_version h) "HTTP/0.9".

Definition send_response_only (h : handler_state) (status : Z)
    (message : string) : handler_state :=
  if negb (is_http09 h)
  then buffer_append h
         (protocol_version ++ " " ++ str_of_int status ++ " " ++ message ++ CRLF)
  else h.

Definition send_header (h : handler_state) (keyword value : string)
  : handler_state :=
  let h1 :=
    if negb (is_http09 h)
    then buffer_append h (keyword ++ ": " ++ value ++ CRLF)
    else h in
  if String.eqb (lower keyword) "connection"
  then if String.eqb (lower value) "close" then set_close_connection h1 true
       else if String.eqb (lower value) "keep-alive"
            then set_close_connection h1 false
            else h1
  else h1.

Definition flush_headers (h : handler_state) : handler_state :=
  match headers_buffer h with
  | Some b => set_headers_buffer (wfile_write h (join b)) (Some [])
  | None => h
  end.

(** [None] stands for the [AttributeError] of appending to a buffer that
    was never created. *)
Definition end_headers (h : handler_state) : option handler_state :=
  if negb (is_http09 h)
  then match headers_buffer h with
       | Some b => Some (flush_headers (set_headers_buffer h (Some (b ++ [CRLF])%list)))
       | None => None
       end
  else Some h.

End BaseHTTPRequestHandler.

(** The class [main] defines over [handler]: [end_headers] sends the three
    headers and then runs the [end_headers] of the class it derives from,
    which is what [super().end_headers()] resolves to. *)
Module CORSRequestHandler.

Definition end_headers (handler : handler_state -> option handler_state)
    (self : handler_state) : option handler_state :=
  let self := BaseHTTPRequestHandler.send_header self "Access-Control-Allow-Origin" "*" in
  let self := BaseHTTPRequestHandler.send_header self "Access-Control-Allow-Methods" "GET, POST, OPTIONS" in
  let self := BaseHTTPRequestHandler.send_header self "Access-Control-Allow-Headers" "*" in
  handler self.

End CORSRequestHandler.

(** What the static handler has decided to answer, before any byte is
    sent: the code and phrase of the status line, its own headers in the
    order it sends them ([Server] and [Date] first, from [send_response]),
    and the body (empty when none is written). *)
Record reply := {
  status : Z;
  reason : string;
  own_headers : list (string * string);
  body : string
}.

Module SimpleHTTPRequestHandler.

(** Inherited from [BaseHTTPRequestHandler]. *)
Definition end_headers : handler_state -> option handler_state :=
  BaseHTTPRequestHandler.end_headers.

Definition send_headers (h : handler_state) (hs : list (string * string))
  : handler_state :=
  fold_left (fun h kv => BaseHTTPRequestHandler.send_header h (fst kv) (snd kv)) hs h.

(** The way every answer of the static handler is sent ([send_head],
    [list_directory], [send_error]): status line, own headers,
    [self.end_headers()], body.  [self_end_headers] is the method the
    handler's class resolves [end_headers] to. *)
Definition send_reply (self_end_headers : handler_state -> option handler_state)
    (h : handler_state) (r : reply) : option handler_state :=
  let h := BaseHTTPRequestHandler.send_response_only h (status r) (reason r) in
  let h := send_headers h (own_headers r) in
  match self_end_headers h with
  | Some h => Some (wfile_write h (body r))
  | None => None
  end.

(** A handler is made for each request; its directory is the working
    directory of that moment, and [parse_request] sets its version from
    the request line. *)
Definition init (max_str_digits : Z) (cwd : Pathlib.Path) (req : request)
  : handler_state :=
  {| request_version :=
       BaseHTTPRequestHandler.parse_request_version max_str_digits (requestline req);
     directory := cwd;
     headers_buffer := None; wfile := []; close_connection := true |}.

(** [handle_one_request]: a line without a word gets no answer at all;
    any other line gets the answer the static handler has decided on, an
    error answer of [parse_request] included. *)
Definition handle_one_request
    (self_end_headers : handler_state -> option handler_state)
    (max_str_digits : Z) (cwd : Pathlib.Path) (req : request) (r : reply)
  : option handler_state :=
  let h := init max_str_digits cwd req in
  match requestline req with
  | [] => Some h
  | _ :: _ => send_reply self_end_headers h r
  end.

End SimpleHTTPRequestHandler.

(** The bytes one request is answered with by a handler of the class whose
    [end_headers] is given, when the client takes every write; [None]
    when the handler raised for want of a header buffer. *)
Definition answer (self_end_headers : handler_state -> option handler_state)
    (max_str_digits : Z) (cwd : Pathlib.Path) (req : request) (r : reply)
  : option string :=
  match SimpleHTTPRequestHandler.handle_one_request self_end_headers
          max_str_digits cwd req r with
  | Some h => Some (join (wfile h))
  | None => None
  end.

(** ** The process: state, effects and exceptions *)

Inductive exn :=
| ValueError
| OverflowError
| OSError (errno : Z)
| KeyboardInterrupt
| SystemExit (code : Z).

(** What the process does that can be seen from outside, in order.
    [Handled] is an exchange in which the client took all the bytes
    [sent]; [HandlerError] is one in which the handler raised. *)
Inductive event :=
| Print (line : string)
| Chdir (dir : Pathlib.Path)
| SocketCreate
| Bind (host : string) (port : Z)
| Listen
| Handled (req : request) (dir : Pathlib.Path) (sent : string)
| HandlerError (req : request)
| SocketClose.

Record process := { cwd : Pathlib.Path; trace : list event }.

(** What the script does not decide: its arguments and location, the
    interpreter's digit limit, the answer of the operating system to
    [bind] on a port in range ([None] for success, else the error number),
    the requests that arrive before the operator interrupts the server, and
    what the static handler answers to a request from a directory. *)
Record environment := {
  argv : list string;
  script_file : Pathlib.Path;
  start_dir : Pathlib.Path;
  int_max_str_digits : Z;
  os_bind : string -> Z -> option Z;
  inbound : list request;
  static_reply : Pathlib.Path -> request -> reply
}.

Inductive outcome (A : Type) :=
| Normal (a : A)
| Raised (e : exn).
Arguments Normal {A} a.
Arguments Raised {A} e.

Definition M (A : Type) : Type := process -> outcome A * process.

Definition ret {A} (a : A) : M A := fun st => (Normal a, st).

Definition bind {A B} (m : M A) (k : A -> M B) : M B :=
  fun st =>
    match m st with
    | (Normal a, st') => k a st'
    | (Raised e, st') => (Raised e, st')
    end.

Definition raise {A} (e : exn) : M A := fun st => (Raised e, st).

Notation "x <- m ;; k" := (bind m (fun x => k))
  (at level 61, m at next level, right associativity).
Notation "m ;; k" := (bind m (fun _ => k))
  (at level 61, right associativity).

(** [try: m except ...: h]: [h e] is the handler of the first clause that
    matches [e], [None] when no clause does. *)
Definition try_except {A} (m : M A) (h : exn -> option (M A)) : M A :=
  fun st =>
    match m st with
    | (Normal a, st') => (Normal a, st')
    | (Raised e, st') =>
        match h e with
        | Some handler => handler st'
        | None => (Raised e, st')
        end
    end.

(** [try: m finally: f]. *)
Definition try_finally {A} (m : M A) (f : M unit) : M A :=
  fun st =>
    match m st with
    | (r, st') =>
        match f st' with
        | (Normal _, st'') => (r, st'')
        | (Raised e, st'') => (Raised e, st'')
        end
    end.

Definition emit (e : event) : M unit :=
  fun st => (Normal tt, {| cwd := cwd st; trace := (trace st ++ [e])%list |}).

Definition print (line : string) : M unit := emit (Print line).

Definition sys_exit {A} (code : Z) : M A := raise (SystemExit code).

Definition os_getcwd : M Pathlib.Path := fun st => (Normal (cwd st), st).

Definition os_chdir (d : Pathlib.Path) : M unit :=
  fun st =>
    (Normal tt,
     {| cwd := Pathlib.resolve (cwd st) d; trace := (trace st ++ [Chdir d])%list |}).

Definition int (env : environment) (s : string) : M Z :=
  match PyInt.int (int_max_str_digits env) s with
  | Some n => ret n
  | None => raise ValueError
  end.

(** ** [socketserver.TCPServer] *)

Module TCPServer.

(** The class of a request handler is given by the method its
    [end_headers] resolves to. *)
Record server := {
  server_address : string * Z;
  RequestHandlerClass : handler_state -> option handler_state
}.

Section Server.

Variable env : environment.

(** [socket.bind((host, port))]: a port outside 0..65535 is refused
    with [OverflowError] before the operating system is asked. *)
Definition socket_bind (host : string) (port : Z) : M unit :=
  if (port <? 0) || (65535 <? port) then raise OverflowError
  else
    emit (Bind host port) ;;
    match os_bind env host port with
    | Some errno => raise (OSError errno)
    | None => ret tt
    end.

Definition server_bind (self : server) : M unit :=
  socket_bind (fst (server_address self)) (snd (server_address self)).

Definition server_activate : M unit := emit Listen.

Definition server_close : M unit := emit SocketClose.

(** [TCPServer(server_address, RequestHandlerClass)]. *)
Definition init (address : string * Z)
    (cls : handler_state -> option handler_state) : M server :=
  let self := {| server_address := address; RequestHandlerClass := cls |} in
  emit SocketCreate ;;
  try_except (server_bind self ;; server_activate)
    (fun e => Some (server_close ;; raise e)) ;;
  ret self.

(** One accepted request: a handler is made and run.  An exception of
    the handler, from a write the client does not take or from a missing
    header buffer, is caught and reported by [handle_error], and the loop
    goes on. *)
Definition handle_request_noblock (self : server) (req : request) : M unit :=
  dir <- os_getcwd ;;
  if write_fails req then emit (HandlerError req)
  else
    match answer (RequestHandlerClass self) (int_max_str_digits env) dir req
            (static_reply env dir req) with
    | Some sent => emit (Handled req dir sent)
    | None => emit (HandlerError req)
    end.

(** [serve_forever] never returns by itself: it handles the requests
    that arrive, and the interrupt of the operator ends it with
    [KeyboardInterrupt].  The model places the interrupt here, in the
    accept loop and between two requests; an interrupt that arrives while
    [main] prints the banner or the stop notice, outside the [try] of
    [main], is not modelled. *)
Fixpoint serve (self : server) (arriving : list request) : M unit :=
  match arriving with
  | [] => raise KeyboardInterrupt
  | req :: rest => handle_request_noblock self req ;; serve self rest
  end.

Definition serve_forever (self : server) : M unit :=
  serve self (inbound env).

(** [with TCPServer(address, cls) as httpd: body]: [__exit__] closes the
    server and lets an exception of the body through. *)
Definition with_server {A} (address : string * Z)
    (cls : handler_state -> option handler_state)
    (body : server -> M A) : M A :=
  httpd <- init address cls ;;
  try_finally (body httpd) server_close.

End Server.
End TCPServer.

(** ** [serve.py] *)

Definition is_ValueError (e : exn) : bool :=
  match e with ValueError => true | _ => false end.

Definition is_KeyboardInterrupt (e : exn) : bool :=
  match e with KeyboardInterrupt => true | _ => false end.

Definition main (env : environment) : M unit :=
  port <-
    (if 1 <? Z.of_nat (List.length (argv env))
     then
       try_except (int env (nth 1 (argv env) ""))
         (fun e =>
            if is_ValueError e
            then Some (print ("Invalid port number: " ++ nth 1 (argv env) "") ;;
                       sys_exit 1)
            else None)
     else ret 8000) ;;
  let webapp_dir := Pathlib.parent (script_file env) in
  os_chdir webapp_dir ;;
  let handler := SimpleHTTPRequestHandler.end_headers in
  let CORSRequestHandler := CORSRequestHandler.end_headers handler in
  TCPServer.with_server env ("", port) CORSRequestHandler (fun httpd =>
     print "☕ Coffee Roaster Digital Twin Server" ;;
     print ("Serving at http://localhost:" ++ str_of_int port) ;;
     print "Press Ctrl+C to stop the server" ;;
     print "" ;;
     print ("Open http://localhost:" ++ str_of_int port
            ++ " in your web browser to use the simulator") ;;
     try_except (TCPServer.serve_forever env httpd)
       (fun e =>
          if is_KeyboardInterrupt e
          then Some (print (LF ++ "Server stopped."))
          else None)).

(** ** The interpreter around [main] *)

Inductive exit_status :=
| Exited (code : Z)
| KilledByInterrupt.

(** How a run ends: the exit status, the exception whose traceback the
    interpreter wrote to standard error (if any), and the process as it
    was left. *)
Record run := {
  exit : exit_status;
  traceback : option exn;
  final : process
}.

(** [if __name__ == "__main__": main()].  [SystemExit] ends the process
    with its code and no traceback; any other exception that leaves [main]
    is written to standard error as a traceback, and the status is 1, or
    death by the interrupt signal for [KeyboardInterrupt]. *)
Definition python (env : environment) : run :=
  match main env {| cwd := start_dir env; trace := [] |} with
  | (Normal _, st) => {| exit := Exited 0; traceback := None; final := st |}
  | (Raised (SystemExit c), st) =>
      {| exit := Exited c; traceback := None; final := st |}
  | (Raised KeyboardInterrupt, st) =>
      {| exit := KilledByInterrupt; traceback := Some KeyboardInterrupt; final := st |}
  | (Raised e, st) => {| exit := Exited 1; traceback := Some e; final := st |}
  end.

(** Standard output: the printed lines, in order. *)
Definition stdout (r : run) : list string :=
  flat_map (fun e => match e with Print l => [l] | _ => [] end) (trace (final r)).

(** The class of the handlers of [main]. *)
Definition cors_handler : handler_state -> option handler_state :=
  CORSRequestHandler.end_headers SimpleHTTPRequestHandler.end_headers.

(** The port [main] goes on with, [None] when it exits on the argument. *)
Definition resolved_port (env : environment) : option Z :=
  if 1 <? Z.of_nat (List.length (argv env))
  then PyInt.int (int_max_str_digits env) (nth 1 (argv env) "")
  else Some 8000.

(** The same environment with other arguments. *)
Definition with_argv (env : environment) (args : list string) : environment :=
  {| argv := args; script_file := script_file env; start_dir := start_dir env;
     int_max_str_digits := int_max_str_digits env; os_bind := os_bind env;
     inbound := inbound env; static_reply := static_reply env |}.

(** ** Names for what the runs are compared with *)

Definition header_line (keyword value : string) : string :=
  keyword ++ ": " ++ value ++ CRLF.

Definition status_line (r : reply) : string :=
  BaseHTTPRequestHandler.protocol_version ++ " " ++ str_of_int (status r)
  ++ " " ++ reason r ++ CRLF.

Definition cors_lines : list string :=
  [ header_line "Access-Control-Allow-Origin" "*";
    header_line "Access-Control-Allow-Methods" "GET, POST, OPTIONS";
    header_line "Access-Control-Allow-Headers" "*" ].

(** The status line and the header lines of the static handler itself. *)
Definition own_lines (r : reply) : list string :=
  (status_line r :: map (fun kv => header_line (fst kv) (snd kv)) (own_headers r))%list.

Definition webapp_dir (env : environment) : Pathlib.Path :=
  Pathlib.parent (script_file env).

(** The directory the process is in once [os.chdir(webapp_dir)] is done. *)
Definition base_directory (env : environment) : Pathlib.Path :=
  Pathlib.resolve (start_dir env) (webapp_dir env).

Definition banner (port : Z) : list event :=
  [ Print "☕ Coffee Roaster Digital Twin Server";
    Print ("Serving at http://localhost:" ++ str_of_int port);
    Print "Press Ctrl+C to stop the server";
    Print "";
    Print ("Open http://localhost:" ++ str_of_int port
           ++ " in your web browser to use the simulator") ].

(** The event one request leaves behind when it is served from [dir] by a
    handler of the class [cls]. *)
Definition served (env : environment)
    (cls : handler_state -> option handler_state)
    (dir : Pathlib.Path) (req : request) : event :=
  if write_fails req then HandlerError req
  else
    match answer cls (int_max_str_digits env) dir req (static_reply env dir req) with
    | Some sent => Handled req dir sent
    | None => HandlerError req
    end.

Definition is_Chdir (e : event) : bool :=
  match e with Chdir _ => true | _ => false end.

Definition is_Bind (e : event) : bool :=
  match e with Bind _ _ => true | _ => false end.

Definition is_Handled (e : event) : bool :=
  match e with Handled _ _ _ | HandlerError _ => true | _ => false end.

Definition is_socket_event (e : event) : bool :=
  match e with SocketCreate | Bind _ _ | Listen => true | _ => false end.

(** ** The four ways a run can go *)

(** The argument is not an integer. *)
Definition invalid_port_run (env : environment) (arg : string) : run :=
  {| exit := Exited 1; traceback := None;
     final := {| cwd := start_dir env;
                 trace := [Print ("Invalid port number: " ++ arg)] |} |}.

(** The port is outside 0..65535: [bind] refuses it. *)
Definition out_of_range_run (env : environment) : run :=
  {| exit := Exited 1; traceback := Some OverflowError;
     final := {| cwd := base_directory env;
                 trace := [Chdir (webapp_dir env); SocketCreate; SocketClose] |} |}.

(** The operating system refuses the address. *)
Definition bind_failed_run (env : environment) (port errno : Z) : run :=
  {| exit := Exited 1; traceback := Some (OSError errno);
     final := {| cwd := base_directory env;
                 trace := [Chdir (webapp_dir env); SocketCreate;
                           Bind "" port; SocketClose] |} |}.

(** The server starts, serves, and is interrupted. *)
Definition served_run (env : environment) (port : Z) : run :=
  {| exit := Exited 0; traceback := None;
     final := {| cwd := base_directory env;
                 trace := ([Chdir (webapp_dir env); SocketCreate;
                            Bind "" port; Listen]
                           ++ banner port
                           ++ map (served env cors_handler
                                     (base_directory env)) (inbound env)
                           ++ [Print (LF ++ "Server stopped."); SocketClose])%list |} |}.

Definition run_on_port (env : environment) (port : Z) : run :=
  if (port <? 0) || (65535 <? port) then out_of_range_run env
  else match os_bind env "" port with
       | Some errno => bind_failed_run env port errno
       | None => served_run env port
       end.

(** ** Concrete inputs *)

Definition http11_request : request :=
  {| requestline := ["GET"; "/index.html"; "HTTP/1.1"]; write_fails := false |}.

(** The request line [GET /index.html], two words. *)
Definition http09_request : request :=
  {| requestline := ["GET"; "/index.html"]; write_fails := false |}.

Definition ok_reply : reply :=
  {| status := 200; reason := "OK";
     own_headers := [("Server", "SimpleHTTP/0.6"); ("Content-type", "text/html");
                     ("Content-Length", "2")];
     body := "hi" |}.

Definition not_found_reply : reply :=
  {| status := 404; reason := "File not found";
     own_headers := [("Server", "SimpleHTTP/0.6"); ("Connection", "close");
                     ("Content-Type", "text/html;charset=utf-8");
                     ("Content-Length", "9")];
     body := "not found" |}.


(** The error answer of [parse_request] to a version from 2.0 on. *)
Definition version_not_supported_reply : reply :=
  {| status := 505; reason := "HTTP Version Not Supported";
     own_headers := [("Server", "SimpleHTTP/0.6"); ("Connection", "close");
                     ("Content-Type", "text/html;charset=utf-8");
                     ("Content-Length", "11")];
     body := "unsupported" |}.

(** The request line [GET /index.html HTTP/2.0], which [parse_request]
    answers with an error under the default version. *)
Definition http20_request : request :=
  {| requestline := ["GET"; "/index.html"; "HTTP/2.0"]; write_fails := false |}.


Definition srv_webapp : Pathlib.Path :=
  {| Pathlib.anchored := true; Pathlib.names := ["srv"; "webapp"] |}.

(** A server in [/srv/webapp], started from [/home] with the given
    arguments, on a system that refuses ports below 1024, reached by the
    given requests before it is interrupted. *)
Definition sample_env (args : list string) (reqs : list request) : environment :=
  {| argv := "serve.py" :: args;
     script_file := {| Pathlib.anchored := true;
                       Pathlib.names := ["srv"; "webapp"; "serve.py"] |};
     start_dir := {| Pathlib.anchored := true; Pathlib.names := ["home"] |};
     int_max_str_digits := 4300;
     os_bind := fun _ p => if p <? 1024 then Some 13 else None;
     inbound := reqs;
     static_reply := fun _ r =>
       if String.eqb (last (requestline r) "") "HTTP/2.0"
       then version_not_supported_reply
       else if String.eqb (req_path r) "/index.html" then ok_reply
            else not_found_reply |}.

(** ** Names for further statements *)

Definition is_SocketCreate (e : event) : bool :=
  match e with SocketCreate => true | _ => false end.

Definition is_SocketClose (e : event) : bool :=
  match e with SocketClose => true | _ => false end.



(** A text made of white space only, the empty text included. *)
Fixpoint all_space (s : string) : bool :=
  match s with
  | EmptyString => true
  | String c t => PyInt.is_space c && all_space t
  end.

(** * Properties *)

(** ** Byte strings *)

Lemma append_assoc (a b c : string) : (a ++ b) ++ c = a ++ (b ++ c).
Proof. induction a as [|x a IH]; simpl; [reflexivity | now rewrite IH]. Qed.




Lemma join_app (a b : list string) : join (a ++ b) = join a ++ join b.
Proof.
  induction a as [|x a IH]; simpl; [reflexivity|].
  now rewrite IH, append_assoc.
Qed.

(** ** The header buffer *)

Module HeaderFacts.

Import BaseHTTPRequestHandler.

Lemma send_header_version h k v :
  request_version (send_header h k v) = request_version h.
Proof.
  unfold send_header, buffer_append, set_close_connection.
  repeat match goal with |- context [if ?c then _ else _] => destruct c end;
    reflexivity.
Qed.

Lemma send_header_wfile h k v : wfile (send_header h k v) = wfile h.
Proof.
  unfold send_header, buffer_append, set_close_connection.
  repeat match goal with |- context [if ?c then _ else _] => destruct c end;
    reflexivity.
Qed.

Lemma send_header_is_http09 h k v :
  is_http09 (send_header h k v) = is_http09 h.
Proof. unfold is_http09. now rewrite send_header_version. Qed.

(** With a version other than HTTP/0.9 a header is one more line at the
    end of the buffer. *)
Lemma send_header_buffer h k v :
  is_http09 h = false ->
  headers_buffer (send_header h k v) = Some (pending h ++ [header_line k v])%list.
Proof.
  intros V. unfold send_header, pending, header_line. rewrite V. simpl.
  repeat match goal with |- context [if ?c then _ else _] => destruct c end;
    simpl; destruct (headers_buffer h); reflexivity.
Qed.

(** For HTTP/0.9 nothing is buffered. *)
Lemma send_header_http09 h k v :
  is_http09 h = true ->
  headers_buffer (send_header h k v) = headers_buffer h.
Proof.
  intros V. unfold send_header. rewrite V. simpl.
  repeat match goal with |- context [if ?c then _ else _] => destruct c end;
    reflexivity.
Qed.

Lemma send_headers_cons h kv hs :
  SimpleHTTPRequestHandler.send_headers h (kv :: hs)
  = SimpleHTTPRequestHandler.send_headers (send_header h (fst kv) (snd kv)) hs.
Proof. reflexivity. Qed.

Lemma send_headers_version hs : forall h,
  is_http09 (SimpleHTTPRequestHandler.send_headers h hs) = is_http09 h.
Proof.
  induction hs as [|kv hs IH]; intros h; [reflexivity|].
  rewrite send_headers_cons, IH. apply send_header_is_http09.
Qed.

Lemma send_headers_wfile hs : forall h,
  wfile (SimpleHTTPRequestHandler.send_headers h hs) = wfile h.
Proof.
  induction hs as [|kv hs IH]; intros h; [reflexivity|].
  rewrite send_headers_cons, IH. apply send_header_wfile.
Qed.

Lemma send_headers_buffer hs : forall h,
  is_http09 h = false ->
  headers_buffer h <> None ->
  headers_buffer (SimpleHTTPRequestHandler.send_headers h hs)
  = Some (pending h ++ map (fun kv => header_line (fst kv) (snd kv)) hs)%list.
Proof.
  induction hs as [|kv hs IH]; intros h V B.
  - cbn [map]. unfold pending. cbn.
    destruct (headers_buffer h); [|congruence].
    now rewrite app_nil_r.
  - rewrite send_headers_cons, IH.
    + unfold pending at 1. rewrite send_header_buffer by exact V.
      cbn [map]. now rewrite <- app_assoc.
    + now rewrite send_header_is_http09.
    + rewrite send_header_buffer by exact V. discriminate.
Qed.

Lemma send_headers_http09 hs : forall h,
  is_http09 h = true ->
  headers_buffer (SimpleHTTPRequestHandler.send_headers h hs) = headers_buffer h.
Proof.
  induction hs as [|kv hs IH]; intros h V; [reflexivity|].
  rewrite send_headers_cons, IH.
  - now apply send_header_http09.
  - now rewrite send_header_is_http09.
Qed.

(** The override never meets a missing buffer: its own [send_header]
    calls create it.  What it writes is the pending lines, the three
    CORS lines and the blank line, as one chunk. *)
Lemma cors_end_headers h :
  is_http09 h = false ->
  exists h',
    cors_handler h = Some h'
    /\ wfile h' = (wfile h ++ [join (pending h ++ cors_lines ++ [CRLF])])%list
    /\ headers_buffer h' = Some [].
Proof.
  intros V. unfold cors_handler, CORSRequestHandler.end_headers, SimpleHTTPRequestHandler.end_headers.
  set (h1 := send_header h _ _).
  set (h2 := send_header h1 _ _).
  set (h3 := send_header h2 _ _).
  assert (V1 : is_http09 h1 = false) by (subst h1; now rewrite send_header_is_http09).
  assert (V2 : is_http09 h2 = false) by (subst h2; now rewrite send_header_is_http09).
  assert (V3 : is_http09 h3 = false) by (subst h3; now rewrite send_header_is_http09).
  assert (B1 : headers_buffer h1 = Some (pending h ++ [header_line "Access-Control-Allow-Origin" "*"])%list)
    by (subst h1; now apply send_header_buffer).
  assert (B2 : headers_buffer h2 = Some ((pending h ++ [header_line "Access-Control-Allow-Origin" "*"]) ++ [header_line "Access-Control-Allow-Methods" "GET, POST, OPTIONS"])%list).
  { subst h2. rewrite send_header_buffer by exact V1. unfold pending at 1.
    now rewrite B1. }
  assert (B3 : headers_buffer h3 = Some (((pending h ++ [header_line "Access-Control-Allow-Origin" "*"]) ++ [header_line "Access-Control-Allow-Methods" "GET, POST, OPTIONS"]) ++ [header_line "Access-Control-Allow-Headers" "*"])%list).
  { subst h3. rewrite send_header_buffer by exact V2. unfold pending at 1.
    now rewrite B2. }
  assert (W3 : wfile h3 = wfile h)
    by (subst h3 h2 h1; now rewrite !send_header_wfile).
  unfold end_headers. rewrite V3, B3. simpl negb. cbv iota.
  eexists. split; [reflexivity|].
  unfold flush_headers, set_headers_buffer, wfile_write; simpl.
  rewrite W3. split; [|reflexivity].
  do 2 f_equal. unfold cors_lines. now rewrite <- !app_assoc.
Qed.

(** For HTTP/0.9 the override leaves buffer and output as they are. *)
Lemma cors_end_headers_http09 h :
  is_http09 h = true ->
  exists h',
    cors_handler h = Some h'
    /\ wfile h' = wfile h.
Proof.
  intros V. unfold cors_handler, CORSRequestHandler.end_headers, SimpleHTTPRequestHandler.end_headers, end_headers.
  rewrite !send_header_is_http09, V. simpl.
  eexists. split; [reflexivity|]. now rewrite !send_header_wfile.
Qed.

End HeaderFacts.

(** ** One request and its answer *)

Module AnswerFacts.

Import BaseHTTPRequestHandler HeaderFacts.

Lemma append_nil_r (a : string) : a ++ EmptyString = a.
Proof. induction a as [|x a IH]; simpl; [reflexivity | now rewrite IH]. Qed.

Lemma init_is_http09 m dir req :
  is_http09 (SimpleHTTPRequestHandler.init m dir req)
  = String.eqb (parse_request_version m (requestline req)) "HTTP/0.9".
Proof. reflexivity. Qed.

(** Only a line of three words or more is answered under another version
    than the default. *)
Lemma version_needs_three_words m words :
  String.eqb (parse_request_version m words) "HTTP/0.9" = false ->
  (3 <= List.length words)%nat.
Proof.
  unfold parse_request_version.
  destruct (3 <=? List.length words)%nat eqn:L.
  - intros _. now apply Nat.leb_le.
  - discriminate.
Qed.

(** The handler after the status line and its own headers, when the
    version is not HTTP/0.9. *)
Lemma before_end_headers m dir req r :
  String.eqb (parse_request_version m (requestline req)) "HTTP/0.9" = false ->
  let h := SimpleHTTPRequestHandler.send_headers
             (send_response_only (SimpleHTTPRequestHandler.init m dir req)
                (status r) (reason r))
             (own_headers r) in
  is_http09 h = false /\ wfile h = [] /\ headers_buffer h = Some (own_lines r).
Proof.
  intros V h. subst h.
  assert (E : send_response_only (SimpleHTTPRequestHandler.init m dir req)
                (status r) (reason r)
              = set_headers_buffer (SimpleHTTPRequestHandler.init m dir req)
                  (Some [status_line r])).
  { unfold send_response_only. rewrite init_is_http09, V. reflexivity. }
  rewrite E. repeat split.
  - rewrite send_headers_version. exact V.
  - now rewrite send_headers_wfile.
  - rewrite send_headers_buffer; [reflexivity | exact V | discriminate].
Qed.

(** A line answered under another version than the default has words, so
    it is answered by [send_reply]. *)
Lemma handle_with_version cls m dir req r :
  String.eqb (parse_request_version m (requestline req)) "HTTP/0.9" = false ->
  SimpleHTTPRequestHandler.handle_one_request cls m dir req r
  = SimpleHTTPRequestHandler.send_reply cls
      (SimpleHTTPRequestHandler.init m dir req) r.
Proof.
  intros V. apply version_needs_three_words in V.
  unfold SimpleHTTPRequestHandler.handle_one_request.
  destruct (requestline req); [cbn in V; lia | reflexivity].
Qed.

(** With the override: own lines, CORS lines, blank line, body. *)
Lemma answer_cors m dir req r :
  String.eqb (parse_request_version m (requestline req)) "HTTP/0.9" = false ->
  answer cors_handler m dir req r
  = Some (join (own_lines r) ++ join cors_lines ++ CRLF ++ body r).
Proof.
  intros V. unfold answer. rewrite (handle_with_version _ _ _ _ _ V).
  unfold SimpleHTTPRequestHandler.send_reply.
  destruct (before_end_headers m dir req r V) as (V' & W & B).
  destruct (cors_end_headers _ V') as (h' & E & W' & _).
  rewrite E. cbn [wfile_write wfile]. rewrite W', W.
  unfold pending. rewrite B. cbn [app]. f_equal.
  cbn [join fold_right]. fold (join (own_lines r ++ cors_lines ++ [CRLF])).
  rewrite !join_app. cbn [join fold_right].
  now rewrite !append_nil_r, !append_assoc.
Qed.


(** Under HTTP/0.9 the answer is the body alone, and nothing for a line
    without a word. *)
Lemma answer_cors_http09 m dir req r :
  String.eqb (parse_request_version m (requestline req)) "HTTP/0.9" = true ->
  answer cors_handler m dir req r
  = Some (match requestline req with [] => EmptyString | _ :: _ => body r end).
Proof.
  intros V. unfold answer, SimpleHTTPRequestHandler.handle_one_request.
  destruct (requestline req) as [|w ws] eqn:Q; [reflexivity|].
  unfold SimpleHTTPRequestHandler.send_reply.
  set (h := SimpleHTTPRequestHandler.send_headers _ _).
  assert (I : is_http09 (SimpleHTTPRequestHandler.init m dir req) = true)
    by (now rewrite init_is_http09, Q).
  assert (V' : is_http09 h = true).
  { subst h. rewrite send_headers_version. unfold send_response_only.
    now rewrite I. }
  assert (W : wfile h = []).
  { subst h. rewrite send_headers_wfile. unfold send_response_only.
    now rewrite I. }
  destruct (cors_end_headers_http09 _ V') as (h' & E & W').
  rewrite E. cbn [wfile_write wfile]. rewrite W', W. cbn.
  now rewrite append_nil_r.
Qed.

(** A handler of the class of [main] does not fail for want of a header
    buffer. *)
Lemma answer_cors_total m dir req r :
  exists sent, answer cors_handler m dir req r = Some sent.
Proof.
  destruct (String.eqb (parse_request_version m (requestline req)) "HTTP/0.9") eqn:V.
  - eexists. now apply answer_cors_http09.
  - eexists. now apply answer_cors.
Qed.

End AnswerFacts.

(** ** The runs of [main] *)

Module RunFacts.

Lemma arg_guard (l : list string) :
  (1 <? Z.of_nat (List.length l))
  = match nth_error l 1 with Some _ => true | None => false end.
Proof.
  destruct l as [|x [|a l]]; try reflexivity.
  cbn [nth_error List.length]. apply Z.ltb_lt. lia.
Qed.

Lemma arg_nth (l : list string) (a : string) :
  nth_error l 1 = Some a -> nth 1 l "" = a.
Proof. destruct l as [|x [|b l]]; cbn; congruence. Qed.

(** The loop handles the arriving requests in order, from the directory
    the process is in, and ends with the interrupt. *)
Lemma serve_trace env httpd : forall arriving st,
  TCPServer.serve env httpd arriving st
  = (Raised KeyboardInterrupt,
     {| cwd := cwd st;
        trace := (trace st
                  ++ map (served env (TCPServer.RequestHandlerClass httpd) (cwd st))
                      arriving)%list |}).
Proof.
  induction arriving as [|req rest IH]; intros st.
  - cbn. rewrite app_nil_r. now destruct st.
  - cbn [TCPServer.serve map]. unfold bind at 1.
    unfold TCPServer.handle_request_noblock, bind, os_getcwd, served.
    destruct (write_fails req); [|destruct (answer _ _ _ _ _)];
      cbn [emit]; rewrite IH; cbn [cwd trace]; now rewrite <- app_assoc.
Qed.



(** The run from the point where the port is known. *)
Ltac from_port port :=
  unfold run_on_port, TCPServer.with_server, TCPServer.init,
    TCPServer.server_bind, TCPServer.socket_bind, TCPServer.serve_forever;
  cbn [fst snd TCPServer.server_address];
  destruct ((port <? 0) || (65535 <? port));
  [ reflexivity
  | destruct (os_bind _ "" port);
    [ reflexivity
    | cbv beta iota delta [bind try_except try_finally os_chdir emit print ret
                            TCPServer.server_activate TCPServer.server_close
                            cwd trace];
      rewrite serve_trace;
      cbn [is_KeyboardInterrupt cwd trace app TCPServer.RequestHandlerClass];
      unfold served_run, banner, base_directory, webapp_dir;
      cbn [app]; rewrite <- app_assoc; reflexivity ] ].

Lemma python_cases env :
  python env
  = match resolved_port env with
    | Some port => run_on_port env port
    | None => invalid_port_run env (nth 1 (argv env) "")
    end.
Proof.
  unfold python, main, resolved_port.
  unfold bind at 1.
  destruct (1 <? Z.of_nat (List.length (argv env))).
  - unfold try_except at 1, int.
    destruct (PyInt.int (int_max_str_digits env) (nth 1 (argv env) "")) as [port|].
    + cbn [ret raise is_ValueError]. from_port port.
    + reflexivity.
  - cbn [ret]. from_port 8000.
Qed.
End RunFacts.

(** ** What a run contains *)

Module TraceFacts.

Import RunFacts.

Lemma resolved_port_arg env arg :
  nth_error (argv env) 1 = Some arg ->
  resolved_port env = PyInt.int (int_max_str_digits env) arg.
Proof.
  intros H. unfold resolved_port.
  now rewrite arg_guard, H, (arg_nth _ _ H).
Qed.

Lemma resolved_port_default env :
  nth_error (argv env) 1 = None -> resolved_port env = Some 8000.
Proof. intros H. unfold resolved_port. now rewrite arg_guard, H. Qed.

Lemma python_invalid env arg :
  nth_error (argv env) 1 = Some arg ->
  PyInt.int (int_max_str_digits env) arg = None ->
  python env = invalid_port_run env arg.
Proof.
  intros H P. rewrite python_cases, (resolved_port_arg _ _ H), P.
  now rewrite (arg_nth _ _ H).
Qed.

Lemma python_resolved env port :
  resolved_port env = Some port -> python env = run_on_port env port.
Proof. intros H. now rewrite python_cases, H. Qed.

Lemma run_out_of_range env port :
  port < 0 \/ 65535 < port -> run_on_port env port = out_of_range_run env.
Proof.
  intros H. unfold run_on_port.
  destruct ((port <? 0) || (65535 <? port)) eqn:E; [reflexivity|].
  apply orb_false_iff in E. destruct E as [E1 E2].
  apply Z.ltb_ge in E1, E2. lia.
Qed.

Lemma run_in_range env port :
  0 <= port <= 65535 ->
  run_on_port env port
  = match os_bind env "" port with
    | Some errno => bind_failed_run env port errno
    | None => served_run env port
    end.
Proof.
  intros H. unfold run_on_port.
  destruct ((port <? 0) || (65535 <? port)) eqn:E; [|reflexivity].
  apply orb_true_iff in E. destruct E as [E|E]; apply Z.ltb_lt in E; lia.
Qed.

(** The three ways a run with a port can go. *)
Lemma run_on_port_cases env port :
  run_on_port env port = out_of_range_run env
  \/ (exists errno, run_on_port env port = bind_failed_run env port errno)
  \/ run_on_port env port = served_run env port.
Proof.
  unfold run_on_port. destruct ((port <? 0) || (65535 <? port)); [now left|].
  destruct (os_bind env "" port) as [errno|]; [right; left; now exists errno|].
  now right; right.
Qed.

Lemma in_served_run env port e :
  In e (trace (final (served_run env port))) ->
  In e [Chdir (webapp_dir env); SocketCreate; Bind "" port; Listen]
  \/ In e (banner port)
  \/ In e (map (served env cors_handler (base_directory env))
             (inbound env))
  \/ In e [Print (LF ++ "Server stopped."); SocketClose].
Proof.
  cbn [served_run final trace]. rewrite !in_app_iff. tauto.
Qed.

(** A handled request is one that arrived; it was served from the
    directory of the script by the handler with the override. *)
Lemma handled_in_run env req dir sent :
  In (Handled req dir sent) (trace (final (python env))) ->
  dir = base_directory env
  /\ In req (inbound env)
  /\ answer cors_handler (int_max_str_digits env) dir req (static_reply env dir req)
     = Some sent.
Proof.
  rewrite python_cases. destruct (resolved_port env) as [port|].
  - destruct (run_on_port_cases env port) as [E|[[errno E]|E]]; rewrite E.
    + cbn. intuition discriminate.
    + cbn. intuition discriminate.
    + intros H. apply in_served_run in H.
      destruct H as [H|[H|[H|H]]];
        try (cbn in H; intuition discriminate).
      apply in_map_iff in H. destruct H as (r & Hr & Hin).
      unfold served in Hr.
      destruct (write_fails r); [discriminate|].
      destruct (answer _ _ _ r _) eqn:A; [|discriminate].
      injection Hr as E1 E2 E3. subst. auto.
  - cbn. intuition discriminate.
Qed.

(** Every [bind] the process asks for is on the empty host at the
    resolved port. *)
Lemma bind_in_run env host port :
  In (Bind host port) (trace (final (python env))) ->
  host = "" /\ resolved_port env = Some port.
Proof.
  rewrite python_cases. destruct (resolved_port env) as [p|].
  - destruct (run_on_port_cases env p) as [E|[[errno E]|E]]; rewrite E.
    + cbn. intuition discriminate.
    + cbn. intros [H|[H|[H|[H|[]]]]]; try discriminate.
      injection H as <- <-. auto.
    + intros H. apply in_served_run in H.
      destruct H as [H|[H|[H|H]]].
      * cbn in H. destruct H as [H|[H|[H|[H|[]]]]]; try discriminate.
        injection H as <- <-. auto.
      * cbn in H. intuition discriminate.
      * apply in_map_iff in H. destruct H as (r & Hr & _).
        unfold served in Hr.
        destruct (write_fails r); [discriminate|].
        destruct (answer _ _ _ r _); discriminate.
      * cbn in H. intuition discriminate.
  - cbn. intuition discriminate.
Qed.

Lemma served_is_Handled env cls dir req :
  is_Handled (served env cls dir req) = true.
Proof.
  unfold served. destruct (write_fails req); [reflexivity|].
  now destruct (answer _ _ _ _ _).
Qed.

(** Serving requests adds no event of another kind. *)
Lemma filter_served (f : event -> bool) env cls dir (l : list request) :
  (forall e, is_Handled e = true -> f e = false) ->
  filter f (map (served env cls dir) l) = [].
Proof.
  intros F. induction l as [|r l IH]; [reflexivity|].
  cbn [map filter]. now rewrite (F _ (served_is_Handled env cls dir r)).
Qed.

Lemma filter_served_all env cls dir (l : list request) :
  filter is_Handled (map (served env cls dir) l) = map (served env cls dir) l.
Proof.
  induction l as [|r l IH]; [reflexivity|].
  cbn [map filter]. now rewrite served_is_Handled, IH.
Qed.

Lemma stdout_served env cls dir (l : list request) :
  flat_map (fun e => match e with Print line => [line] | _ => [] end)
    (map (served env cls dir) l) = [].
Proof.
  induction l as [|r l IH]; [reflexivity|].
  cbn [map flat_map]. rewrite IH. unfold served.
  destruct (write_fails r); [reflexivity|].
  now destruct (answer _ _ _ _ _).
Qed.

End TraceFacts.

(** ** The CORS headers *)


(** When a request is answered under another version than HTTP/0.9: its
    line has three words or more, and the last one is a version
    [HTTP/<major>.<minor>] of two integers, below 2.0, that is not the
    word [HTTP/0.9] itself. *)
Lemma parse_request_version_spec m words :
  BaseHTTPRequestHandler.parse_request_version m words <> "HTTP/0.9"
  <-> (3 <= List.length words)%nat
      /\ last words "" <> "HTTP/0.9"
      /\ exists major minor,
           BaseHTTPRequestHandler.version_number m (last words "")
           = Some (major, minor)
           /\ (major < 2 \/ (major = 2 /\ minor < 0)).
Proof.
  unfold BaseHTTPRequestHandler.parse_request_version,
    BaseHTTPRequestHandler.default_request_version.
  destruct (3 <=? List.length words)%nat eqn:L.
  - apply Nat.leb_le in L.
    destruct (BaseHTTPRequestHandler.version_number m (last words ""))
      as [[major minor]|] eqn:N.
    + unfold BaseHTTPRequestHandler.at_least_2_0. cbn [fst snd].
      destruct ((2 <? major) || ((major =? 2) && (0 <=? minor))) eqn:G.
      * split; [congruence|]. intros (_ & _ & a & b & E & R).
        injection E as <- <-.
        apply orb_true_iff in G. destruct G as [G|G].
        -- apply Z.ltb_lt in G. lia.
        -- apply andb_true_iff in G. destruct G as [G1 G2].
           apply Z.eqb_eq in G1. apply Z.leb_le in G2. lia.
      * split.
        -- intros V. split; [exact L|]. split; [exact V|].
           exists major, minor. split; [reflexivity|].
           apply orb_false_iff in G. destruct G as [G1 G2].
           apply Z.ltb_ge in G1. apply andb_false_iff in G2.
           destruct G2 as [G2|G2];
             [apply Z.eqb_neq in G2 | apply Z.leb_gt in G2]; lia.
        -- now intros (_ & V & _).
    + split; [congruence|]. intros (_ & _ & a & b & E & _). discriminate.
  - apply Nat.leb_gt in L. split; [congruence|]. intros (L' & _). lia.
Qed.







(** ** The port argument *)

(** C2: when the first argument is not an integer for [int], the process
    prints [Invalid port number: ] followed by the argument and nothing
    else, exits with status 1 without a traceback, and creates, binds and
    listens on no socket. *)
Theorem invalid_port_exits_without_socket env arg :
  nth_error (argv env) 1 = Some arg ->
  PyInt.int (int_max_str_digits env) arg = None ->
  stdout (python env) = ["Invalid port number: " ++ arg]
  /\ exit (python env) = Exited 1
  /\ traceback (python env) = None
  /\ forall e, In e (trace (final (python env))) -> is_socket_event e = false.
Proof.
  intros H P. rewrite (TraceFacts.python_invalid env arg H P).
  repeat split. intros e [<-|[]]. reflexivity.
Qed.

Lemma invalid_port_exits_without_socket_witness :
  let env := sample_env ["abc"] [http11_request] in
  nth_error (argv env) 1 = Some "abc"
  /\ PyInt.int (int_max_str_digits env) "abc" = None
  /\ stdout (python env) = ["Invalid port number: abc"]
  /\ exit (python env) = Exited 1
  /\ traceback (python env) = None
  /\ forall e, In e (trace (final (python env))) -> is_socket_event e = false.
Proof.
  intros env. split; [reflexivity|]. split; [reflexivity|].
  apply (invalid_port_exits_without_socket env "abc"); reflexivity.
Defined.

(** C3: when the first argument is an integer below 0 or above 65535, the
    process ends with status 1 and the traceback of the [OverflowError]
    that [bind] raised; it never listens and handles no request. *)
Theorem port_out_of_range_fails_fast env arg port :
  nth_error (argv env) 1 = Some arg ->
  PyInt.int (int_max_str_digits env) arg = Some port ->
  port < 0 \/ 65535 < port ->
  exit (python env) = Exited 1
  /\ traceback (python env) = Some OverflowError
  /\ ~ In Listen (trace (final (python env)))
  /\ forall e, In e (trace (final (python env))) -> is_Handled e = false.
Proof.
  intros H P R.
  rewrite (TraceFacts.python_resolved env port)
    by now rewrite (TraceFacts.resolved_port_arg env arg H).
  rewrite (TraceFacts.run_out_of_range env port R).
  repeat split.
  - cbn. intuition discriminate.
  - intros e [<-|[<-|[<-|[]]]]; reflexivity.
Qed.

Lemma port_out_of_range_fails_fast_witness :
  let env := sample_env ["70000"] [http11_request] in
  nth_error (argv env) 1 = Some "70000"
  /\ PyInt.int (int_max_str_digits env) "70000" = Some 70000
  /\ (70000 < 0 \/ 65535 < 70000)
  /\ exit (python env) = Exited 1
  /\ traceback (python env) = Some OverflowError
  /\ ~ In Listen (trace (final (python env)))
  /\ forall e, In e (trace (final (python env))) -> is_Handled e = false.
Proof.
  intros env. split; [reflexivity|]. split; [reflexivity|].
  split; [right; lia|].
  apply (port_out_of_range_fails_fast env "70000" 70000);
    [reflexivity | reflexivity | right; lia].
Defined.

(** C4: with no argument the port is 8000; the process asks for one
    [bind], on the empty host and port 8000, and listens there when the
    operating system grants it.  In any run, a [bind] is on the empty host
    and on the resolved port. *)
Theorem default_port_and_bind_address env :
  (List.length (argv env) <= 1)%nat ->
  resolved_port env = Some 8000
  /\ filter is_Bind (trace (final (python env))) = [Bind "" 8000]
  /\ (os_bind env "" 8000 = None -> In Listen (trace (final (python env))))
  /\ forall env' host port,
       In (Bind host port) (trace (final (python env'))) ->
       host = "" /\ resolved_port env' = Some port.
Proof.
  intros L.
  assert (N : nth_error (argv env) 1 = None).
  { destruct (argv env) as [|x [|y l]]; cbn in *; [reflexivity | reflexivity | lia]. }
  pose proof (TraceFacts.resolved_port_default env N) as P.
  split; [exact P|].
  rewrite (TraceFacts.python_resolved env 8000 P).
  rewrite TraceFacts.run_in_range by lia.
  split; [|split].
  - destruct (os_bind env "" 8000); [reflexivity|].
    cbn [served_run final trace]. rewrite !filter_app.
    replace (filter is_Bind (map _ (inbound env))) with (@nil event); [reflexivity|].
    induction (inbound env) as [|r l IH]; [reflexivity|].
    cbn [map filter]. unfold served at 1.
    destruct (write_fails r); [exact IH|].
    destruct (answer _ _ _ r _); exact IH.
  - intros ->. cbn. auto.
  - intros env' host port. apply TraceFacts.bind_in_run.
Qed.

Lemma default_port_and_bind_address_witness :
  let env := sample_env [] [http11_request] in
  (List.length (argv env) <= 1)%nat
  /\ resolved_port env = Some 8000
  /\ filter is_Bind (trace (final (python env))) = [Bind "" 8000]
  /\ (os_bind env "" 8000 = None -> In Listen (trace (final (python env))))
  /\ forall env' host port,
       In (Bind host port) (trace (final (python env'))) ->
       host = "" /\ resolved_port env' = Some port.
Proof.
  intros env. split; [cbn; lia|].
  apply (default_port_and_bind_address env). cbn. lia.
Defined.

(** C5: when the operating system refuses the address, the error leaves
    [main]: the process ends with status 1 and the traceback of that
    [OSError].  It asked for one [bind] only, on the resolved port, and
    after it did nothing but close the socket. *)
Theorem bind_error_is_fatal env port errno :
  resolved_port env = Some port ->
  0 <= port <= 65535 ->
  os_bind env "" port = Some errno ->
  exit (python env) = Exited 1
  /\ traceback (python env) = Some (OSError errno)
  /\ trace (final (python env))
     = [Chdir (Pathlib.parent (script_file env)); SocketCreate;
        Bind "" port; SocketClose]
  /\ filter is_Bind (trace (final (python env))) = [Bind "" port].
Proof.
  intros P R B.
  rewrite (TraceFacts.python_resolved env port P).
  rewrite TraceFacts.run_in_range, B by exact R.
  repeat split.
Qed.

Lemma bind_error_is_fatal_witness :
  let env := sample_env ["80"] [http11_request] in
  resolved_port env = Some 80
  /\ 0 <= 80 <= 65535
  /\ os_bind env "" 80 = Some 13
  /\ exit (python env) = Exited 1
  /\ traceback (python env) = Some (OSError 13)
  /\ trace (final (python env))
     = [Chdir (Pathlib.parent (script_file env)); SocketCreate;
        Bind "" 80; SocketClose]
  /\ filter is_Bind (trace (final (python env))) = [Bind "" 80].
Proof.
  intros env. split; [reflexivity|]. split; [lia|]. split; [reflexivity|].
  apply (bind_error_is_fatal env 80 13); [reflexivity | lia | reflexivity].
Defined.

(** ** The working directory *)

(** C6: let the path of the script be the names [dirs] followed by the
    file name.  In a run that gets past the port argument, the first thing
    the process does is [chdir] to [dirs], the path of the script without
    its last name, and only then is the socket created.  The process is
    then in that directory (in [dirs] itself when the path of the script
    starts at the root, whatever the directory it was started in, and in
    [dirs] under the start directory otherwise); no later event changes
    the directory, the process ends in it, and every request is served
    from it. *)
Theorem working_directory_fixed_at_startup env port dirs name :
  resolved_port env = Some port ->
  Pathlib.names (script_file env) = (dirs ++ [name])%list ->
  let script_dir :=
    {| Pathlib.anchored := Pathlib.anchored (script_file env);
       Pathlib.names := dirs |} in
  let entered :=
    if Pathlib.anchored (script_file env) then script_dir
    else {| Pathlib.anchored := Pathlib.anchored (start_dir env);
            Pathlib.names := (Pathlib.names (start_dir env) ++ dirs)%list |} in
  exists rest,
    trace (final (python env)) = Chdir script_dir :: SocketCreate :: rest
    /\ filter is_Chdir rest = []
    /\ cwd (final (python env)) = entered
    /\ (forall req dir sent,
          In (Handled req dir sent) (trace (final (python env))) ->
          dir = entered).
Proof.
  intros P N script_dir entered.
  assert (W : webapp_dir env = script_dir).
  { unfold webapp_dir, Pathlib.parent, script_dir.
    now rewrite N, removelast_last. }
  assert (B : base_directory env = entered).
  { unfold base_directory, Pathlib.resolve. rewrite W. reflexivity. }
  assert (C : cwd (final (python env)) = entered).
  { rewrite (TraceFacts.python_resolved env port P).
    destruct (TraceFacts.run_on_port_cases env port) as [E|[[errno E]|E]];
      now rewrite E. }
  assert (T : exists rest,
             trace (final (python env)) = Chdir script_dir :: SocketCreate :: rest
             /\ filter is_Chdir rest = []).
  { rewrite (TraceFacts.python_resolved env port P).
    destruct (TraceFacts.run_on_port_cases env port) as [E|[[errno E]|E]];
      rewrite E.
    - eexists. cbn [out_of_range_run final trace]. rewrite W.
      split; reflexivity.
    - eexists. cbn [bind_failed_run final trace]. rewrite W.
      split; reflexivity.
    - eexists. cbn [served_run final trace app]. rewrite W.
      split; [reflexivity|].
      cbn [app banner]. cbn [filter is_Chdir]. rewrite filter_app.
      rewrite TraceFacts.filter_served; [reflexivity|].
      now intros [].
  }
  destruct T as (rest & T1 & T2). exists rest.
  split; [exact T1|]. split; [exact T2|]. split; [exact C|].
  intros req dir sent H. rewrite <- B.
  now apply TraceFacts.handled_in_run in H.
Qed.

Lemma working_directory_fixed_at_startup_witness :
  let env := sample_env ["8080"] [http11_request; http09_request] in
  let srv_webapp_dir :=
    {| Pathlib.anchored := true; Pathlib.names := ["srv"; "webapp"] |} in
  resolved_port env = Some 8080
  /\ Pathlib.names (script_file env) = (["srv"; "webapp"] ++ ["serve.py"])%list
  /\ exists rest,
       trace (final (python env)) = Chdir srv_webapp_dir :: SocketCreate :: rest
       /\ filter is_Chdir rest = []
       /\ cwd (final (python env)) = srv_webapp_dir
       /\ (forall req dir sent,
             In (Handled req dir sent) (trace (final (python env))) ->
             dir = srv_webapp_dir).
Proof.
  intros env srv_webapp_dir. split; [reflexivity|]. split; [reflexivity|].
  apply (working_directory_fixed_at_startup env 8080 ["srv"; "webapp"] "serve.py");
    reflexivity.
Defined.

(** ** The interrupt *)

(** C7: when the server has started, the interrupt ends the run with
    status 0 and no traceback; the last line printed is the stop notice,
    the last two events are that line and the closing of the socket, and
    the requests handled are those that arrived before. *)
Theorem interrupt_stops_cleanly env port :
  resolved_port env = Some port ->
  0 <= port <= 65535 ->
  os_bind env "" port = None ->
  exit (python env) = Exited 0
  /\ traceback (python env) = None
  /\ (exists before,
        trace (final (python env))
        = (before ++ [Print (LF ++ "Server stopped."); SocketClose])%list)
  /\ stdout (python env)
     = [ "☕ Coffee Roaster Digital Twin Server";
         "Serving at http://localhost:" ++ str_of_int port;
         "Press Ctrl+C to stop the server";
         "";
         "Open http://localhost:" ++ str_of_int port
           ++ " in your web browser to use the simulator";
         LF ++ "Server stopped." ]
  /\ filter is_Handled (trace (final (python env)))
     = map (served env cors_handler (cwd (final (python env))))
         (inbound env).
Proof.
  intros P R B.
  rewrite (TraceFacts.python_resolved env port P).
  rewrite TraceFacts.run_in_range, B by exact R.
  split; [reflexivity|]. split; [reflexivity|]. split; [|split].
  - cbn [served_run final trace]. eexists.
    rewrite !app_assoc. reflexivity.
  - unfold stdout. cbn [served_run final trace banner app flat_map].
    rewrite flat_map_app, TraceFacts.stdout_served. reflexivity.
  - cbn [served_run final trace cwd banner app filter is_Handled].
    rewrite filter_app, TraceFacts.filter_served_all. cbn. apply app_nil_r.
Qed.

Lemma interrupt_stops_cleanly_witness :
  let env := sample_env ["8080"] [http11_request] in
  resolved_port env = Some 8080
  /\ 0 <= 8080 <= 65535
  /\ os_bind env "" 8080 = None
  /\ exit (python env) = Exited 0
  /\ traceback (python env) = None
  /\ (exists before,
        trace (final (python env))
        = (before ++ [Print (LF ++ "Server stopped."); SocketClose])%list)
  /\ stdout (python env)
     = [ "☕ Coffee Roaster Digital Twin Server";
         "Serving at http://localhost:" ++ str_of_int 8080;
         "Press Ctrl+C to stop the server";
         "";
         "Open http://localhost:" ++ str_of_int 8080
           ++ " in your web browser to use the simulator";
         LF ++ "Server stopped." ]
  /\ filter is_Handled (trace (final (python env)))
     = map (served env cors_handler (cwd (final (python env))))
         (inbound env).
Proof.
  intros env. split; [reflexivity|]. split; [lia|]. split; [reflexivity|].
  apply (interrupt_stops_cleanly env 8080); [reflexivity | lia | reflexivity].
Defined.

(** ** Which arguments count *)

(** C9: two argument lists with the same second element (the first
    argument of the command line), or with none both, give the same
    resolved port and the same run, whatever else they hold. *)
Theorem port_depends_on_first_argument env args1 args2 :
  nth_error args1 1 = nth_error args2 1 ->
  resolved_port (with_argv env args1) = resolved_port (with_argv env args2)
  /\ python (with_argv env args1) = python (with_argv env args2).
Proof.
  intros H.
  assert (R : resolved_port (with_argv env args1)
              = resolved_port (with_argv env args2)).
  { destruct (nth_error args2 1) as [arg|] eqn:N.
    - now rewrite (TraceFacts.resolved_port_arg (with_argv env args1) arg H),
        (TraceFacts.resolved_port_arg (with_argv env args2) arg N).
    - now rewrite (TraceFacts.resolved_port_default (with_argv env args1) H),
        (TraceFacts.resolved_port_default (with_argv env args2) N). }
  split; [exact R|].
  rewrite !RunFacts.python_cases, R.
  destruct (resolved_port (with_argv env args2)) as [port|] eqn:P; [reflexivity|].
  destruct (nth_error args2 1) as [arg|] eqn:N.
  - cbn [argv with_argv].
    now rewrite (RunFacts.arg_nth args1 arg H), (RunFacts.arg_nth args2 arg N).
  - rewrite (TraceFacts.resolved_port_default (with_argv env args2) N) in P.
    discriminate.
Qed.

Lemma port_depends_on_first_argument_witness :
  let env := sample_env [] [http11_request] in
  let args1 := ["serve.py"; "8080"] in
  let args2 := ["./serve.py"; "8080"; "--verbose"; "9999"] in
  nth_error args1 1 = nth_error args2 1
  /\ resolved_port (with_argv env args1) = resolved_port (with_argv env args2)
  /\ python (with_argv env args1) = python (with_argv env args2).
Proof.
  intros env args1 args2. split; [reflexivity|].
  apply (port_depends_on_first_argument env args1 args2). reflexivity.
Defined.

(** C10: with a first argument, the process takes the error exit (status
    1, the one line [Invalid port number: ...] printed) exactly when
    [int] refuses the argument.  The arguments [ 8000 ] with blanks
    around, [+8000] and [8_000] are integers for [int], whatever the digit
    limit, and the run goes on with port 8000.  On the error exit the
    process is left in the directory it was started in, and the printed
    line is its only effect. *)
Theorem invalid_port_path_exact env arg :
  nth_error (argv env) 1 = Some arg ->
  (exit (python env) = Exited 1
   /\ stdout (python env) = ["Invalid port number: " ++ arg]
   <-> PyInt.int (int_max_str_digits env) arg = None)
  /\ (In arg [" 8000 "; "+8000"; "8_000"] ->
      PyInt.int (int_max_str_digits env) arg = Some 8000
      /\ python env = run_on_port env 8000)
  /\ (PyInt.int (int_max_str_digits env) arg = None ->
      final (python env)
      = {| cwd := start_dir env;
           trace := [Print ("Invalid port number: " ++ arg)] |}).
Proof.
  intros H. split; [split|split].
  - intros [X S].
    destruct (PyInt.int (int_max_str_digits env) arg) as [port|] eqn:P;
      [exfalso|reflexivity].
    assert (Q : resolved_port env = Some port)
      by now rewrite (TraceFacts.resolved_port_arg env arg H).
    rewrite (TraceFacts.python_resolved env port Q) in X, S.
    destruct (TraceFacts.run_on_port_cases env port) as [E|[[errno E]|E]];
      rewrite E in X, S; discriminate.
  - intros P. now rewrite (TraceFacts.python_invalid env arg H P).
  - intros A.
    assert (P : PyInt.int (int_max_str_digits env) arg = Some 8000).
    { destruct A as [<-|[<-|[<-|[]]]]; reflexivity. }
    split; [exact P|].
    apply TraceFacts.python_resolved.
    now rewrite (TraceFacts.resolved_port_arg env arg H).
  - intros P. now rewrite (TraceFacts.python_invalid env arg H P).
Qed.

Lemma invalid_port_path_exact_witness :
  let env := sample_env ["8_000"; "x"] [http11_request] in
  nth_error (argv env) 1 = Some "8_000"
  /\ (exit (python env) = Exited 1
      /\ stdout (python env) = ["Invalid port number: " ++ "8_000"]
      <-> PyInt.int (int_max_str_digits env) "8_000" = None)
  /\ (In "8_000" [" 8000 "; "+8000"; "8_000"] ->
      PyInt.int (int_max_str_digits env) "8_000" = Some 8000
      /\ python env = run_on_port env 8000)
  /\ (PyInt.int (int_max_str_digits env) "8_000" = None ->
      final (python env)
      = {| cwd := start_dir env;
           trace := [Print ("Invalid port number: " ++ "8_000")] |}).
Proof.
  intros env. split; [reflexivity|].
  apply (invalid_port_path_exact env "8_000"). reflexivity.
Defined.

(** ** The models at concrete inputs *)

Example int_abc : PyInt.int 4300 "abc" = None.
Proof. reflexivity. Qed.

Example int_signed_grouped : PyInt.int 4300 " -12_3 " = Some (-123).
Proof. reflexivity. Qed.

Example int_double_underscore : PyInt.int 4300 "5__0" = None.
Proof. reflexivity. Qed.

Example int_gap_after_sign : PyInt.int 4300 "+ 5" = None.
Proof. reflexivity. Qed.

Example int_leading_underscore : PyInt.int 4300 "+_5" = None.
Proof. reflexivity. Qed.

Example int_hexadecimal : PyInt.int 4300 "0x10" = None.
Proof. reflexivity. Qed.

Example int_leading_zeros : PyInt.int 4300 "007" = Some 7.
Proof. reflexivity. Qed.

Example parent_of_relative_script :
  Pathlib.parent {| Pathlib.anchored := false; Pathlib.names := ["serve.py"] |}
  = {| Pathlib.anchored := false; Pathlib.names := [] |}.
Proof. reflexivity. Qed.

Example run_with_text_argument :
  python (sample_env ["abc"] [http11_request])
  = invalid_port_run (sample_env ["abc"] [http11_request]) "abc".
Proof. reflexivity. Qed.

Example run_with_port_70000 :
  traceback (python (sample_env ["70000"] [])) = Some OverflowError.
Proof. reflexivity. Qed.

Example version_of_http11_line :
  BaseHTTPRequestHandler.parse_request_version 4300 ["GET"; "/"; "HTTP/1.1"]
  = "HTTP/1.1".
Proof. reflexivity. Qed.

Example version_of_two_words :
  BaseHTTPRequestHandler.parse_request_version 4300 ["GET"; "/"] = "HTTP/0.9".
Proof. reflexivity. Qed.

Example version_of_http20_line :
  BaseHTTPRequestHandler.parse_request_version 4300 ["GET"; "/"; "HTTP/2.0"]
  = "HTTP/0.9".
Proof. reflexivity. Qed.

Example version_of_malformed_line :
  BaseHTTPRequestHandler.parse_request_version 4300 ["GET"; "/"; "HTTP/1.1.1"]
  = "HTTP/0.9".
Proof. reflexivity. Qed.

Example version_of_four_words :
  BaseHTTPRequestHandler.parse_request_version 4300 ["GET"; "/"; "x"; "HTTP/1.0"]
  = "HTTP/1.0".
Proof. reflexivity. Qed.

Example answer_to_http20_line :
  answer cors_handler 4300 srv_webapp http20_request version_not_supported_reply
  = Some "unsupported".
Proof. reflexivity. Qed.

Example answer_to_empty_line :
  answer cors_handler 4300 srv_webapp
    {| requestline := []; write_fails := false |} ok_reply
  = Some "".
Proof. reflexivity. Qed.

(** * Further properties of the script *)

(** ** Sockets, exit status and output *)

Lemma listen_in_served_run env port :
  In Listen (trace (final (served_run env port))).
Proof. cbn [served_run final trace app]. right; right; right; left; reflexivity. Qed.

(** X1: in every run the socket, once created, is closed: there is at most
    one creation, as many closings as creations, and the closing is the
    last thing the process does. *)
Theorem socket_closed_in_every_run env :
  List.length (filter is_SocketClose (trace (final (python env))))
  = List.length (filter is_SocketCreate (trace (final (python env))))
  /\ (List.length (filter is_SocketCreate (trace (final (python env)))) <= 1)%nat
  /\ (In SocketCreate (trace (final (python env))) ->
      exists before,
        trace (final (python env)) = (before ++ [SocketClose])%list).
Proof.
  rewrite RunFacts.python_cases. destruct (resolved_port env) as [port|].
  - destruct (TraceFacts.run_on_port_cases env port) as [E|[[errno E]|E]];
      rewrite E.
    + cbn. repeat split; [lia|]. intros _.
      now exists [Chdir (webapp_dir env); SocketCreate].
    + cbn. repeat split; [lia|]. intros _.
      now exists [Chdir (webapp_dir env); SocketCreate; Bind "" port].
    + cbn [served_run final trace banner app filter is_SocketClose is_SocketCreate].
      rewrite !filter_app, !TraceFacts.filter_served by now intros [].
      cbn. repeat split; [lia|]. intros _.
      exists ([Chdir (webapp_dir env); SocketCreate; Bind "" port; Listen]
              ++ banner port
              ++ map (served env cors_handler (base_directory env)) (inbound env)
              ++ [Print (LF ++ "Server stopped.")])%list.
      now rewrite <- !app_assoc.
  - cbn. repeat split; [lia|]. intros [H|[]]. discriminate.
Qed.

(** X2: a run ends with status 0 only if the server got to listen, and
    then the stop notice is the last line printed; a run ends without a
    traceback only if the server got to listen or the argument was
    refused. *)
Theorem exit_status_zero_only_after_listen env :
  (exit (python env) = Exited 0 ->
   In Listen (trace (final (python env)))
   /\ exists lines, stdout (python env) = (lines ++ [(LF ++ "Server stopped.")%string])%list)
  /\ (traceback (python env) = None ->
      In Listen (trace (final (python env))) \/ resolved_port env = None).
Proof.
  rewrite RunFacts.python_cases. destruct (resolved_port env) as [port|].
  - destruct (TraceFacts.run_on_port_cases env port) as [E|[[errno E]|E]];
      rewrite E.
    + cbn. split; discriminate.
    + cbn. split; discriminate.
    + pose proof (listen_in_served_run env port) as L.
      split; [|auto]. intros _. split; [exact L|].
      unfold stdout. cbn [served_run final trace banner app flat_map].
      rewrite flat_map_app, TraceFacts.stdout_served. cbn [app flat_map].
      now exists [ "☕ Coffee Roaster Digital Twin Server";
                   "Serving at http://localhost:" ++ str_of_int port;
                   "Press Ctrl+C to stop the server";
                   "";
                   "Open http://localhost:" ++ str_of_int port
                     ++ " in your web browser to use the simulator" ].
  - cbn. split; [discriminate | auto].
Qed.

Lemma exit_status_zero_only_after_listen_witness :
  let env := sample_env ["8080"] [http11_request] in
  exit (python env) = Exited 0
  /\ traceback (python env) = None
  /\ In Listen (trace (final (python env)))
  /\ exists lines, stdout (python env) = (lines ++ [(LF ++ "Server stopped.")%string])%list.
Proof.
  intros env. split; [reflexivity|]. split; [reflexivity|].
  apply (proj1 (exit_status_zero_only_after_listen env)). reflexivity.
Defined.

(** X3: the operating system is asked to bind exactly when the port is
    resolved and lies in 0..65535, both ends included; the address is
    then the empty host with that port. *)
Theorem bind_iff_port_in_range env host port :
  In (Bind host port) (trace (final (python env)))
  <-> host = "" /\ resolved_port env = Some port /\ 0 <= port <= 65535.
Proof.
  split.
  - intros H. destruct (TraceFacts.bind_in_run env host port H) as [-> P].
    split; [reflexivity|]. split; [exact P|].
    rewrite (TraceFacts.python_resolved env port P) in H.
    destruct (Z_lt_dec port 0) as [L|L];
      [rewrite TraceFacts.run_out_of_range in H by (now left);
       cbn in H; intuition discriminate|].
    destruct (Z_lt_dec 65535 port) as [U|U];
      [rewrite TraceFacts.run_out_of_range in H by (now right);
       cbn in H; intuition discriminate|].
    lia.
  - intros (-> & P & R).
    rewrite (TraceFacts.python_resolved env port P), TraceFacts.run_in_range by exact R.
    destruct (os_bind env "" port); cbn; auto.
Qed.

(** X4: in a run with a resolved port, every printed line comes after the
    socket has started to listen; a run in which the socket never listens
    prints nothing. *)
Theorem banner_only_after_listen env port :
  resolved_port env = Some port ->
  (forall pre line post,
      trace (final (python env)) = (pre ++ Print line :: post)%list ->
      In Listen pre)
  /\ (~ In Listen (trace (final (python env))) -> stdout (python env) = []).
Proof.
  intros P. rewrite (TraceFacts.python_resolved env port P).
  destruct (TraceFacts.run_on_port_cases env port) as [E|[[errno E]|E]];
    rewrite E; split.
  - intros pre line post H. cbn in H.
    do 3 (destruct pre as [|? pre]; [discriminate H|]; injection H as _ H).
    destruct pre; discriminate H.
  - reflexivity.
  - intros pre line post H. cbn in H.
    do 4 (destruct pre as [|? pre]; [discriminate H|]; injection H as _ H).
    destruct pre; discriminate H.
  - reflexivity.
  - intros pre line post H. cbn [served_run final trace app] in H.
    destruct pre as [|e1 pre]; [discriminate H|]. injection H as <- H.
    destruct pre as [|e2 pre]; [discriminate H|]. injection H as <- H.
    destruct pre as [|e3 pre]; [discriminate H|]. injection H as <- H.
    destruct pre as [|e4 pre]; [discriminate H|]. injection H as <- H.
    cbn. auto.
  - intros N. elim N. apply listen_in_served_run.
Qed.

Lemma banner_only_after_listen_witness :
  let env := sample_env ["8080"] [http11_request] in
  resolved_port env = Some 8080
  /\ (forall pre line post,
         trace (final (python env)) = (pre ++ Print line :: post)%list ->
         In Listen pre)
  /\ (~ In Listen (trace (final (python env))) -> stdout (python env) = []).
Proof.
  intros env. split; [reflexivity|].
  apply (banner_only_after_listen env 8080). reflexivity.
Defined.


(** ** The override by itself *)

Lemma send_header_keeps_connection h k v :
  String.eqb (lower k) "connection" = false ->
  close_connection (BaseHTTPRequestHandler.send_header h k v) = close_connection h
  /\ directory (BaseHTTPRequestHandler.send_header h k v) = directory h.
Proof.
  intros K. unfold BaseHTTPRequestHandler.send_header. rewrite K.
  now destruct (negb (BaseHTTPRequestHandler.is_http09 h)).
Qed.

Lemma base_end_headers_keeps h h' :
  BaseHTTPRequestHandler.end_headers h = Some h' ->
  close_connection h' = close_connection h
  /\ directory h' = directory h
  /\ request_version h' = request_version h.
Proof.
  unfold BaseHTTPRequestHandler.end_headers.
  destruct (negb (BaseHTTPRequestHandler.is_http09 h)).
  - destruct (headers_buffer h); [|discriminate].
    intros E. injection E as <-. repeat split.
  - intros E. injection E as <-. repeat split.
Qed.

(** X6: the three headers the override sends touch nothing but the header
    buffer and the output: whether the connection is to be closed, the
    request version and the directory of the handler are after the
    override what they were before. *)
Theorem cors_headers_keep_connection_state h h' :
  cors_handler h = Some h' ->
  close_connection h' = close_connection h
  /\ request_version h' = request_version h
  /\ directory h' = directory h.
Proof.
  unfold cors_handler, CORSRequestHandler.end_headers,
    SimpleHTTPRequestHandler.end_headers.
  intros E. apply base_end_headers_keeps in E. destruct E as (C & D & V).
  rewrite C, D, V, !HeaderFacts.send_header_version.
  repeat match goal with
  | |- context [close_connection (BaseHTTPRequestHandler.send_header ?x ?k ?v)] =>
      rewrite (proj1 (send_header_keeps_connection x k v eq_refl))
  | |- context [directory (BaseHTTPRequestHandler.send_header ?x ?k ?v)] =>
      rewrite (proj2 (send_header_keeps_connection x k v eq_refl))
  end.
  repeat split.
Qed.

Lemma cors_headers_keep_connection_state_witness :
  let h := SimpleHTTPRequestHandler.init 4300 srv_webapp http11_request in
  let h' := {| request_version := "HTTP/1.1"; directory := srv_webapp;
               headers_buffer := Some [];
               wfile := [join (cors_lines ++ [CRLF])];
               close_connection := true |} in
  cors_handler h = Some h'
  /\ close_connection h' = close_connection h
  /\ request_version h' = request_version h
  /\ directory h' = directory h.
Proof.
  intros h h'. split; [reflexivity|].
  apply (cors_headers_keep_connection_state h h'). reflexivity.
Defined.

(** X7: the override does not fail for want of a header buffer.  On a
    handler that has no header buffer yet and a version other than
    HTTP/0.9, the inherited [end_headers] alone fails (the
    [AttributeError] of appending to a missing buffer); the override on
    the same handler gets as far as writing the three CORS lines and the
    blank line, because its own [send_header] calls create the buffer.
    Whether the client takes that write is not part of this statement. *)
Theorem cors_end_headers_creates_buffer h :
  BaseHTTPRequestHandler.is_http09 h = false ->
  headers_buffer h = None ->
  SimpleHTTPRequestHandler.end_headers h = None
  /\ exists h',
       cors_handler h = Some h'
       /\ wfile h' = (wfile h ++ [join (cors_lines ++ [CRLF])])%list.
Proof.
  intros V B. split.
  - unfold SimpleHTTPRequestHandler.end_headers, BaseHTTPRequestHandler.end_headers.
    now rewrite V, B.
  - destruct (HeaderFacts.cors_end_headers h V) as (h' & E & W & _).
    exists h'. split; [exact E|]. rewrite W. unfold pending. now rewrite B.
Qed.

Lemma cors_end_headers_creates_buffer_witness :
  let h := SimpleHTTPRequestHandler.init 4300 srv_webapp http11_request in
  BaseHTTPRequestHandler.is_http09 h = false
  /\ headers_buffer h = None
  /\ SimpleHTTPRequestHandler.end_headers h = None
  /\ exists h',
       cors_handler h = Some h'
       /\ wfile h' = (wfile h ++ [join (cors_lines ++ [CRLF])])%list.
Proof.
  intros h. split; [reflexivity|]. split; [reflexivity|].
  apply (cors_end_headers_creates_buffer h); reflexivity.
Defined.

(** X8: the override leaves the header buffer empty, so the headers of
    one header block are not sent again with the next: a second
    [end_headers] on the same handler writes the three CORS lines and the
    blank line, and nothing of what the first one wrote. *)
Theorem second_end_headers_sends_only_cors h :
  BaseHTTPRequestHandler.is_http09 h = false ->
  exists h1 h2,
    cors_handler h = Some h1
    /\ cors_handler h1 = Some h2
    /\ wfile h2
       = (wfile h ++ [join (pending h ++ cors_lines ++ [CRLF]);
                      join (cors_lines ++ [CRLF])])%list.
Proof.
  intros V.
  destruct (HeaderFacts.cors_end_headers h V) as (h1 & E1 & W1 & B1).
  assert (V1 : BaseHTTPRequestHandler.is_http09 h1 = false).
  { unfold cors_handler, CORSRequestHandler.end_headers,
      SimpleHTTPRequestHandler.end_headers in E1.
    apply base_end_headers_keeps in E1. destruct E1 as (_ & _ & R).
    unfold BaseHTTPRequestHandler.is_http09 in *.
    now rewrite R, !HeaderFacts.send_header_version. }
  destruct (HeaderFacts.cors_end_headers h1 V1) as (h2 & E2 & W2 & _).
  exists h1, h2. split; [exact E1|]. split; [exact E2|].
  rewrite W2, W1. unfold pending at 2. rewrite B1.
  now rewrite <- app_assoc.
Qed.

Lemma second_end_headers_sends_only_cors_witness :
  let h := BaseHTTPRequestHandler.send_response_only
             (SimpleHTTPRequestHandler.init 4300 srv_webapp http11_request) 200 "OK" in
  BaseHTTPRequestHandler.is_http09 h = false
  /\ exists h1 h2,
       cors_handler h = Some h1
       /\ cors_handler h1 = Some h2
       /\ wfile h2
          = (wfile h ++ [join (pending h ++ cors_lines ++ [CRLF]);
                         join (cors_lines ++ [CRLF])])%list.
Proof.
  intros h. split; [reflexivity|].
  apply (second_end_headers_sends_only_cors h). reflexivity.
Defined.

(** ** The requests of a run *)





(** ** More on the port argument *)

Lemma skip_space_all_space s :
  all_space s = true -> PyInt.skip_space s = EmptyString.
Proof.
  induction s as [|c t IH]; [reflexivity|].
  cbn [all_space PyInt.skip_space]. intros H.
  apply andb_true_iff in H. destruct H as [C T]. rewrite C. now apply IH.
Qed.

(** X10: an argument that is empty or made of white space only is not an
    integer: the run is the error exit, with the argument as it is after
    the colon. *)
Theorem blank_argument_is_invalid env arg :
  nth_error (argv env) 1 = Some arg ->
  all_space arg = true ->
  python env = invalid_port_run env arg.
Proof.
  intros H S. apply (TraceFacts.python_invalid env arg H).
  unfold PyInt.int. now rewrite (skip_space_all_space arg S).
Qed.

Lemma blank_argument_is_invalid_witness :
  let env := sample_env [""] [http11_request] in
  nth_error (argv env) 1 = Some ""
  /\ all_space "" = true
  /\ python env = invalid_port_run env "".
Proof.
  intros env. split; [reflexivity|]. split; [reflexivity|].
  apply (blank_argument_is_invalid env ""); reflexivity.
Defined.

(** Two results of the scan that differ in how the digit count is
    written. *)
Ltac same_scan :=
  apply f_equal; apply f_equal2;
  [ apply f_equal2; [reflexivity | lia] | reflexivity ].

(** The scan over the digits [str] writes, from a positive accumulator. *)
Lemma scan_uint_acc (d : Decimal.uint) : forall (acc : positive) (k : Z),
  PyInt.scan_digits (NilEmpty.string_of_uint d) false (Z.pos acc) k
  = Some (Z.pos (Pos.of_uint_acc d acc),
          k + Z.of_nat (String.length (NilEmpty.string_of_uint d)),
          EmptyString).
Proof.
  induction d; intros acc k;
    cbn [NilEmpty.string_of_uint PyInt.scan_digits Pos.of_uint_acc String.length];
    [ now rewrite Z.add_0_r | .. ];
    match goal with
    | |- context [Ascii.eqb ?c "_"] =>
        change (Ascii.eqb c "_") with false; cbv iota
    end;
    match goal with
    | |- context [PyInt.digit_value ?c] =>
        let v := eval vm_compute in (PyInt.digit_value c) in
        change (PyInt.digit_value c) with v; cbv iota
    end;
    match goal with
    | |- PyInt.scan_digits _ false ?a _ = Some (Z.pos (Pos.of_uint_acc _ ?p), _, _) =>
        replace a with (Z.pos p) by lia
    end;
    rewrite IHd; same_scan.
Qed.

(** The same from 0: leading zeros leave the accumulator at 0. *)
Lemma scan_uint (d : Decimal.uint) : forall (k : Z),
  PyInt.scan_digits (NilEmpty.string_of_uint d) false 0 k
  = Some (Z.of_N (Pos.of_uint d),
          k + Z.of_nat (String.length (NilEmpty.string_of_uint d)),
          EmptyString).
Proof.
  induction d; intros k;
    cbn [NilEmpty.string_of_uint PyInt.scan_digits Pos.of_uint String.length];
    [ now rewrite Z.add_0_r | .. ];
    match goal with
    | |- context [Ascii.eqb ?c "_"] =>
        change (Ascii.eqb c "_") with false; cbv iota
    end;
    match goal with
    | |- context [PyInt.digit_value ?c] =>
        let v := eval vm_compute in (PyInt.digit_value c) in
        change (PyInt.digit_value c) with v; cbv iota
    end;
    first
      [ change (10 * 0 + 0) with 0; rewrite IHd; same_scan
      | match goal with
        | |- PyInt.scan_digits _ false ?a _ = Some (Z.of_N (N.pos (Pos.of_uint_acc _ ?p)), _, _) =>
            change a with (Z.pos p)
        end;
        rewrite scan_uint_acc; cbn [Z.of_N]; same_scan ].
Qed.

Lemma nilzero_string_of_uint (d : Decimal.uint) :
  d <> Decimal.Nil -> NilZero.string_of_uint d = NilEmpty.string_of_uint d.
Proof. destruct d; [congruence | reflexivity ..]. Qed.

(** [int] on the digits of a number that is not 0. *)
Lemma int_of_uint_string m (d : Decimal.uint) :
  d <> Decimal.Nil ->
  (String.length (NilEmpty.string_of_uint d) <= 640)%nat ->
  PyInt.int m (NilEmpty.string_of_uint d) = Some (Z.of_N (Pos.of_uint d))
  /\ PyInt.int m (String "-" (NilEmpty.string_of_uint d))
     = Some (- Z.of_N (Pos.of_uint d)).
Proof.
  intros N L.
  assert (X : forall k, PyInt.exceeds_limit m
                (k + Z.of_nat (String.length (NilEmpty.string_of_uint d))) = false
              \/ k <> 0).
  { intros k. destruct (Z.eq_dec k 0) as [->|]; [left|now right].
    unfold PyInt.exceeds_limit, PyInt.str_digits_check_threshold.
    replace (640 <? 0 + Z.of_nat (String.length (NilEmpty.string_of_uint d)))
      with false; [reflexivity|].
    symmetry. apply Z.ltb_ge. lia. }
  destruct (X 0) as [X0|]; [clear X|congruence].
  assert (Z0 : (0 + Z.of_nat (String.length (NilEmpty.string_of_uint d)) =? 0) = false).
  { apply Z.eqb_neq. destruct d; cbn [NilEmpty.string_of_uint String.length];
      [congruence | lia ..]. }
  pose proof (scan_uint d 0) as S.
  destruct d; [congruence | ..];
    (split;
     [ unfold PyInt.int; cbn [NilEmpty.string_of_uint PyInt.skip_space];
       match goal with
       | |- context [PyInt.is_space ?c] =>
           change (PyInt.is_space c) with false
       end;
       cbv beta iota zeta;
       cbn [NilEmpty.string_of_uint] in S, Z0, X0; rewrite S, Z0, X0; reflexivity
     | unfold PyInt.int; cbn [NilEmpty.string_of_uint PyInt.skip_space];
       match goal with
       | |- context [PyInt.is_space ?c] =>
           change (PyInt.is_space c) with false
       end;
       cbv beta iota zeta;
       cbn [NilEmpty.string_of_uint] in S, Z0, X0; rewrite S, Z0, X0; reflexivity ]).
Qed.

(** X11: [int] reads back what [str] writes: for an integer whose decimal
    text has at most 640 characters, whatever the digit limit.  So an
    argument that is the decimal text of a number resolves to that
    number; in particular the port shown in the banner, given again as
    the argument, is the same port. *)
Theorem port_text_round_trip env n :
  nth_error (argv env) 1 = Some (str_of_int n) ->
  (String.length (str_of_int n) <= 640)%nat ->
  PyInt.int (int_max_str_digits env) (str_of_int n) = Some n
  /\ resolved_port env = Some n.
Proof.
  intros H L.
  assert (P : PyInt.int (int_max_str_digits env) (str_of_int n) = Some n).
  { unfold str_of_int in *. destruct n as [|p|p].
    - reflexivity.
    - cbn [Z.to_int NilZero.string_of_int] in *.
      pose proof (DecimalPos.Unsigned.to_uint_nonnil p) as N.
      rewrite (nilzero_string_of_uint _ N) in *.
      destruct (int_of_uint_string (int_max_str_digits env) _ N L) as [I _].
      now rewrite I, DecimalPos.Unsigned.of_to.
    - cbn [Z.to_int NilZero.string_of_int] in *.
      pose proof (DecimalPos.Unsigned.to_uint_nonnil p) as N.
      rewrite (nilzero_string_of_uint _ N) in *.
      cbn [String.length] in L.
      destruct (int_of_uint_string (int_max_str_digits env) (Pos.to_uint p) N)
        as [_ I]; [lia|].
      now rewrite I, DecimalPos.Unsigned.of_to. }
  split; [exact P|].
  now rewrite (TraceFacts.resolved_port_arg env _ H).
Qed.

Lemma port_text_round_trip_witness :
  let env := sample_env ["8080"] [http11_request] in
  nth_error (argv env) 1 = Some (str_of_int 8080)
  /\ (String.length (str_of_int 8080) <= 640)%nat
  /\ PyInt.int (int_max_str_digits env) (str_of_int 8080) = Some 8080
  /\ resolved_port env = Some 8080.
Proof.
  intros env. split; [reflexivity|]. split; [cbn; lia|].
  apply (port_text_round_trip env 8080); [reflexivity | cbn; lia].
Defined.

(** [int] on a text of decimal digits, leading zeros included: the value
    of the digits, unless the digit limit refuses the text. *)
Lemma int_of_digits m (d : Decimal.uint) :
  d <> Decimal.Nil ->
  PyInt.int m (NilEmpty.string_of_uint d)
  = if PyInt.exceeds_limit m
         (Z.of_nat (String.length (NilEmpty.string_of_uint d)))
    then None else Some (Z.of_uint d).
Proof.
  intros N.
  assert (Z0 : (0 + Z.of_nat (String.length (NilEmpty.string_of_uint d)) =? 0) = false).
  { apply Z.eqb_neq. destruct d; cbn [NilEmpty.string_of_uint String.length];
      [congruence | lia ..]. }
  pose proof (scan_uint d 0) as S.
  unfold Z.of_uint.
  change (Z.of_nat (String.length (NilEmpty.string_of_uint d)))
    with (0 + Z.of_nat (String.length (NilEmpty.string_of_uint d))) at 1.
  destruct d; [congruence | ..];
    (unfold PyInt.int; cbn [NilEmpty.string_of_uint PyInt.skip_space];
     match goal with
     | |- context [PyInt.is_space ?c] => change (PyInt.is_space c) with false
     end;
     cbv beta iota zeta;
     cbn [NilEmpty.string_of_uint] in S, Z0; rewrite S, Z0;
     match goal with
     | |- context [PyInt.exceeds_limit ?a ?b] =>
         destruct (PyInt.exceeds_limit a b); reflexivity
     end).
Qed.

(** X12: an argument of decimal digits, leading zeros included, resolves
    to the number the digits denote, unless it has more than 640 digits
    and more digits than a digit limit other than 0: then it is refused
    like any text that is no integer. *)
Theorem digit_argument_and_limit env d :
  d <> Decimal.Nil ->
  nth_error (argv env) 1 = Some (NilEmpty.string_of_uint d) ->
  resolved_port env
  = if PyInt.exceeds_limit (int_max_str_digits env)
         (Z.of_nat (String.length (NilEmpty.string_of_uint d)))
    then None else Some (Z.of_uint d).
Proof.
  intros N H.
  rewrite (TraceFacts.resolved_port_arg env _ H). now apply int_of_digits.
Qed.

Lemma digit_argument_and_limit_witness :
  let env := sample_env ["08080"] [http11_request] in
  let d := Decimal.D0 (Decimal.D8 (Decimal.D0 (Decimal.D8 (Decimal.D0 Decimal.Nil)))) in
  d <> Decimal.Nil
  /\ nth_error (argv env) 1 = Some (NilEmpty.string_of_uint d)
  /\ resolved_port env
     = if PyInt.exceeds_limit (int_max_str_digits env)
            (Z.of_nat (String.length (NilEmpty.string_of_uint d)))
       then None else Some (Z.of_uint d).
Proof.
  intros env d. split; [discriminate|]. split; [reflexivity|].
  apply (digit_argument_and_limit env d); [discriminate | reflexivity].
Defined.

(** ** More on the working directory *)

(** X13: when the script is named by a bare file name, with no directory
    in front and not from the root, [Path(__file__).parent] is the empty
    path and the process stays where it was started, in every run. *)
Theorem bare_script_name_keeps_directory env :
  Pathlib.anchored (script_file env) = false ->
  (List.length (Pathlib.names (script_file env)) <= 1)%nat ->
  cwd (final (python env)) = start_dir env.
Proof.
  intros A L.
  assert (B : base_directory env = start_dir env).
  { unfold base_directory, webapp_dir, Pathlib.resolve, Pathlib.parent.
    cbn [Pathlib.anchored Pathlib.names]. rewrite A.
    replace (removelast (Pathlib.names (script_file env))) with (@nil string).
    - rewrite app_nil_r. now destruct (start_dir env).
    - destruct (Pathlib.names (script_file env)) as [|x [|y l]];
        [reflexivity | reflexivity | cbn in L; lia]. }
  rewrite RunFacts.python_cases. destruct (resolved_port env) as [port|].
  - destruct (TraceFacts.run_on_port_cases env port) as [E|[[errno E]|E]];
      rewrite E; exact B.
  - reflexivity.
Qed.

Lemma bare_script_name_keeps_directory_witness :
  let env :=
    {| argv := ["serve.py"];
       script_file := {| Pathlib.anchored := false; Pathlib.names := ["serve.py"] |};
       start_dir := srv_webapp;
       int_max_str_digits := 4300;
       os_bind := fun _ _ => None;
       inbound := [http11_request];
       static_reply := fun _ _ => ok_reply |} in
  Pathlib.anchored (script_file env) = false
  /\ (List.length (Pathlib.names (script_file env)) <= 1)%nat
  /\ cwd (final (python env)) = start_dir env.
Proof.
  intros env. split; [reflexivity|]. split; [cbn; lia|].
  apply (bare_script_name_keeps_directory env); [reflexivity | cbn; lia].
Defined.
